(** * SOLID principles examples: a shallow embedding of the TypeScript sources

    The repository is a set of stand-alone TypeScript files, one per
    principle.  Every class is embedded as a record of its constructor
    fields, every interface or abstract class as a type class whose
    instances are the implementing classes, and every method as a
    computation in the monad [Js]: it may read and update the receiver,
    read the clock, append lines to the console and complete abruptly
    with a thrown error. *)

From Stdlib Require Import ZArith QArith Qround Bool String Ascii List.
From Stdlib Require Import Floats DecimalString DecimalPos DecimalN Lia.
Import ListNotations.

Set Warnings "-inexact-float".

(** ** The parts of the JavaScript runtime the sources rely on *)

Module JsRuntime.

Local Open Scope string_scope.
Local Open Scope Z_scope.

(** *** Completions, the world and the monad of method bodies *)

(** [new Error(message)], and the built-in [RangeError]. *)
Record JsError : Type := mkJsError { error_name : string; message : string }.

Definition new_Error (msg : string) : JsError := mkJsError "Error" msg.
Definition new_RangeError (msg : string) : JsError := mkJsError "RangeError" msg.

(** The world outside the objects: the reading of the system clock, in
    milliseconds since the epoch, and the lines written to the console
    so far, oldest first. *)
Record World : Type := mkWorld { now : Z; console : list string }.

Inductive Completion (A : Type) : Type :=
| Normal (a : A)
| Throw (e : JsError).
Arguments Normal {A} a.
Arguments Throw {A} e.

(** A computation run on a receiver of type [S] (the object [this], or
    the object a function was handed): it yields a completion, the
    receiver as the computation leaves it, and the world afterwards. *)
Definition Js (S A : Type) : Type := S -> World -> Completion A * S * World.

Definition ret {S A : Type} (a : A) : Js S A :=
  fun s w => (Normal a, s, w).

Definition bind {S A B : Type} (m : Js S A) (k : A -> Js S B) : Js S B :=
  fun s w =>
    match m s w with
    | (Normal a, s', w') => k a s' w'
    | (Throw e, s', w') => (Throw e, s', w')
    end.

Declare Scope js_scope.
Delimit Scope js_scope with js.
Notation "x <- m ;; k" := (bind m (fun x => k))
  (at level 61, m at next level, right associativity) : js_scope.
Notation "m ;; k" := (bind m (fun _ => k))
  (at level 61, right associativity) : js_scope.

(** [throw e]: nothing after it runs. *)
Definition throw {S A : Type} (e : JsError) : Js S A :=
  fun s w => (Throw e, s, w).

(** Reading [this]. *)
Definition this {S : Type} : Js S S :=
  fun s w => (Normal s, s, w).

(** [obj.field.method(...)]: the method runs on the object held in the
    field, and the field keeps that object. *)
Definition on_field {S F A : Type}
    (get : S -> F) (set : F -> S -> S) (m : Js F A) : Js S A :=
  fun s w => let '(r, f', w') := m (get s) w in (r, set f' s, w').

(** [obj.method(...)]: the method runs with [obj] as its receiver. *)
Definition call {S A : Type} (obj : S) (m : Js S A) : World -> Completion A * S * World :=
  m obj.

(** [console.log(line)] with a single string argument. *)
Definition console_log {S : Type} (line : string) : Js S unit :=
  fun s w => (Normal tt, s, mkWorld (now w) (console w ++ [line])).

(** What a caller can observe of a call: how it completed and what the
    console holds afterwards. *)
Definition completion {S A : Type} (r : Completion A * S * World) : Completion A :=
  fst (fst r).
Definition receiver {S A : Type} (r : Completion A * S * World) : S :=
  snd (fst r).
Definition world {S A : Type} (r : Completion A * S * World) : World :=
  snd r.
Definition output {S A : Type} (r : Completion A * S * World) : list string :=
  console (world r).

(** *** Strings *)

(** Decimal digits of a non-negative integer. *)
Definition digits (n : Z) : string := NilZero.string_of_uint (N.to_uint (Z.to_N n)).

Fixpoint zeros (n : nat) : string :=
  match n with
  | O => ""
  | S n' => String "0" (zeros n')
  end.

(** Digits of [n] padded on the left with zeros to [width] characters. *)
Definition pad (width : nat) (n : Z) : string :=
  let d := digits n in (zeros (width - String.length d) ++ d)%string.

(** [String.prototype.includes]. *)
Definition includes (s sub : string) : bool :=
  match index 0 sub s with
  | Some _ => true
  | None => false
  end.

(** *** Number::toString

    The string of a number, as a template literal or string
    concatenation inserts it.  A finite non-zero double is [m * 2 ^ e];
    its digits are the shortest decimal [s * 10 ^ (n - k)], [s] of [k]
    digits, that rounds back to it, the closest one when several do. *)

Definition pow10 (t : Z) : Q := Qpower (10 # 1) t.
Definition pow2 (t : Z) : Q := Qpower (2 # 1) t.

(** Does the real [y] round to the double [m * 2 ^ e] (to nearest, ties
    to the even significand)?  The numbers that do lie between the
    midpoints to the two neighbouring doubles; the lower neighbour is
    nearer when [m] is the smallest normal significand. *)
Definition rounds_to (m : positive) (e : Z) (y : Q) : bool :=
  let below := if (Z.pos m =? 2 ^ 52) && (-1074 <? e) then 1 else 2 in
  let lo := (inject_Z (4 * Z.pos m - below) * pow2 (e - 2))%Q in
  let hi := (inject_Z (4 * Z.pos m + 2) * pow2 (e - 2))%Q in
  if Z.even (Z.pos m)
  then Qle_bool lo y && Qle_bool y hi
  else negb (Qle_bool y lo) && negb (Qle_bool hi y).

(** The least [n], from the start value on, with [x < 10 ^ n]. *)
Fixpoint decimal_exponent (fuel : nat) (n : Z) (x : Q) : Z :=
  match fuel with
  | O => n
  | S fuel' => if Qle_bool (pow10 n) x then decimal_exponent fuel' (n + 1) x else n
  end.

(** The decimal of [k] digits that rounds to [m * 2 ^ e], if there is
    one: [(s, n)].  Only the two decimals of [k] digits around the
    double can. *)
Definition candidate (m : positive) (e : Z) (n0 k : Z) : option (Z * Z) :=
  let x := (inject_Z (Z.pos m) * pow2 e)%Q in
  let t := n0 - k in
  let s0 := Qfloor (x / pow10 t) in
  let value s := (inject_Z s * pow10 t)%Q in
  let normal s := if s =? 10 ^ k then (10 ^ (k - 1), n0 + 1) else (s, n0) in
  match rounds_to m e (value s0), rounds_to m e (value (s0 + 1)) with
  | true, true =>
      let below := (x - value s0)%Q in
      let above := (value (s0 + 1)%Z - x)%Q in
      if Qle_bool below above && negb (Qle_bool above below) then Some (normal s0)
      else if Qle_bool above below && negb (Qle_bool below above) then Some (normal (s0 + 1))
      else if Z.even s0 then Some (normal s0) else Some (normal (s0 + 1))
  | true, false => Some (normal s0)
  | false, true => Some (normal (s0 + 1))
  | false, false => None
  end.

Fixpoint shortest (fuel : nat) (m : positive) (e : Z) (n0 k : Z) : Z * Z * Z :=
  match fuel with
  | O => (n0, k, Qfloor (inject_Z (Z.pos m) * pow2 e / pow10 (n0 - k)))
  | S fuel' =>
      match candidate m e n0 k with
      | Some (s, n) => (n, k, s)
      | None => shortest fuel' m e n0 (k + 1)
      end
  end.

Definition shortest_decimal (m : positive) (e : Z) : Z * Z * Z :=
  let x := (inject_Z (Z.pos m) * pow2 e)%Q in
  shortest 17 m e (decimal_exponent 640 (-324) x) 1.

(** Fixed notation for [-6 < n <= 21], exponent notation otherwise. *)
Definition format_decimal (nks : Z * Z * Z) : string :=
  let '(n, k, s) := nks in
  let d := digits s in
  if (k <=? n) && (n <=? 21) then
    d ++ zeros (Z.to_nat (n - k))
  else if (0 <? n) && (n <=? 21) then
    substring 0 (Z.to_nat n) d ++ "." ++ substring (Z.to_nat n) (Z.to_nat (k - n)) d
  else if (-6 <? n) && (n <=? 0) then
    "0." ++ zeros (Z.to_nat (- n)) ++ d
  else
    let c := if 0 <=? n - 1 then "+" else "-" in
    let ex := digits (Z.abs (n - 1)) in
    if k =? 1 then d ++ "e" ++ c ++ ex
    else substring 0 1 d ++ "." ++ substring 1 (Z.to_nat (k - 1)) d ++ "e" ++ c ++ ex.

Definition Number_toString (x : float) : string :=
  match Prim2SF x with
  | S754_nan => "NaN"
  | S754_zero _ => "0"
  | S754_infinity negative => if negative then "-Infinity" else "Infinity"
  | S754_finite negative m e =>
      (if negative then "-" else "") ++ format_decimal (shortest_decimal m e)
  end.

(** *** JSON.stringify *)

(** The values the sources hand to [JSON.stringify]: strings, and
    object literals listing their properties in source order. *)
#[warnings="-register-all"]
Inductive JsValue : Type :=
| JsString (s : string)
| JsObject (properties : list (string * JsValue)).

Definition backslash : ascii := ascii_of_N 92.
Definition double_quote : ascii := ascii_of_N 34.

Definition hex_digit (n : N) : ascii :=
  match n with
  | 0 => "0" | 1 => "1" | 2 => "2" | 3 => "3" | 4 => "4" | 5 => "5" | 6 => "6"
  | 7 => "7" | 8 => "8" | 9 => "9" | 10 => "a" | 11 => "b" | 12 => "c"
  | 13 => "d" | 14 => "e" | _ => "f"
  end%N%char.

(** One code unit of a string as QuoteJSONString writes it. *)
Definition quote_char (c : ascii) : string :=
  let n := N_of_ascii c in
  if (n =? 8)%N then String backslash "b"
  else if (n =? 9)%N then String backslash "t"
  else if (n =? 10)%N then String backslash "n"
  else if (n =? 12)%N then String backslash "f"
  else if (n =? 13)%N then String backslash "r"
  else if (n =? 34)%N then String backslash (String c "")
  else if (n =? 92)%N then String backslash (String backslash "")
  else if (n <? 32)%N then
    String backslash "u00" ++ String (hex_digit (n / 16)) (String (hex_digit (n mod 16)) "")
  else String c "".

Fixpoint quote_chars (s : string) : string :=
  match s with
  | EmptyString => ""
  | String c s' => quote_char c ++ quote_chars s'
  end.

Definition QuoteJSONString (s : string) : string :=
  String double_quote (quote_chars s ++ String double_quote "").

Fixpoint JSON_stringify (v : JsValue) : string :=
  match v with
  | JsString s => QuoteJSONString s
  | JsObject properties =>
      "{" ++ String.concat ","
               (map (fun p => QuoteJSONString (fst p) ++ ":" ++ JSON_stringify (snd p))
                    properties)
          ++ "}"
  end.

(** *** Date *)

(** A Date object holds a time value, or NaN ([None]). *)
Record Date : Type := mkDate { DateValue : option Z }.

Definition msPerDay : Z := 86400000.

Definition TimeClip (t : Z) : option Z :=
  if Z.abs t <=? 8640000000000000 then Some t else None.

(** [new Date()]: the current reading of the clock. *)
Definition new_Date {S : Type} : Js S Date :=
  fun s w => (Normal (mkDate (TimeClip (now w))), s, w).

Definition Day (t : Z) : Z := t / msPerDay.

Definition DayFromYear (y : Z) : Z :=
  365 * (y - 1970) + (y - 1969) / 4 - (y - 1901) / 100 + (y - 1601) / 400.

Definition DaysInYear (y : Z) : Z :=
  if negb (y mod 4 =? 0) then 365
  else if negb (y mod 100 =? 0) then 366
  else if negb (y mod 400 =? 0) then 365
  else 366.

(** The largest year starting on or before day [d], searched upwards
    from [y], a year known to start on or before [d]. *)
Fixpoint year_search (fuel : nat) (y d : Z) : Z :=
  match fuel with
  | O => y
  | S fuel' => if DayFromYear (y + 1) <=? d then year_search fuel' (y + 1) d else y
  end.

Definition YearFromTime (t : Z) : Z :=
  let d := Day t in
  year_search 1000 (1970 + (if 0 <=? d then d / 366 else d / 365)) d.

Definition DayWithinYear (t : Z) : Z := Day t - DayFromYear (YearFromTime t).

Definition InLeapYear (t : Z) : Z := DaysInYear (YearFromTime t) - 365.

Definition MonthFromTime (t : Z) : Z :=
  let d := DayWithinYear t in
  let l := InLeapYear t in
  if d <? 31 then 0
  else if d <? 59 + l then 1
  else if d <? 90 + l then 2
  else if d <? 120 + l then 3
  else if d <? 151 + l then 4
  else if d <? 181 + l then 5
  else if d <? 212 + l then 6
  else if d <? 243 + l then 7
  else if d <? 273 + l then 8
  else if d <? 304 + l then 9
  else if d <? 334 + l then 10
  else 11.

Definition DateFromTime (t : Z) : Z :=
  let d := DayWithinYear t in
  let l := InLeapYear t in
  match MonthFromTime t with
  | 0 => d + 1
  | 1 => d - 30
  | 2 => d - 58 - l
  | 3 => d - 89 - l
  | 4 => d - 119 - l
  | 5 => d - 150 - l
  | 6 => d - 180 - l
  | 7 => d - 211 - l
  | 8 => d - 242 - l
  | 9 => d - 272 - l
  | 10 => d - 303 - l
  | _ => d - 333 - l
  end.

Definition HourFromTime (t : Z) : Z := (t / 3600000) mod 24.
Definition MinFromTime (t : Z) : Z := (t / 60000) mod 60.
Definition SecFromTime (t : Z) : Z := (t / 1000) mod 60.
Definition msFromTime (t : Z) : Z := t mod 1000.

Definition iso_year (y : Z) : string :=
  if (0 <=? y) && (y <=? 9999) then pad 4 y
  else (if 0 <=? y then "+" else "-") ++ pad 6 (Z.abs y).

(** [Date.prototype.toISOString]. *)
Definition toISOString {S : Type} (d : Date) : Js S string :=
  match DateValue d with
  | None => throw (new_RangeError "Invalid time value")
  | Some t =>
      ret (iso_year (YearFromTime t) ++ "-" ++ pad 2 (MonthFromTime t + 1) ++ "-"
           ++ pad 2 (DateFromTime t) ++ "T" ++ pad 2 (HourFromTime t) ++ ":"
           ++ pad 2 (MinFromTime t) ++ ":" ++ pad 2 (SecFromTime t) ++ "."
           ++ pad 3 (msFromTime t) ++ "Z")
  end.

End JsRuntime.

Import JsRuntime.
Local Open Scope string_scope.
Local Open Scope js_scope.

(** ** Single Responsibility: [User] and [Logger] *)

Module SingleResponsibility.

Record User : Type := new_User { name : string; email : string; password : string }.

(** Retrieves user details: an object holding the name and the email. *)
Definition User_getUser : Js User JsValue :=
  u <- this ;;
  ret (JsObject [("name", JsString (name u)); ("email", JsString (email u))]).

(** Saves the user to the database (simulated). *)
Definition User_save : Js User unit :=
  details <- User_getUser ;;
  console_log ("User " ++ JSON_stringify details ++ " saved to database").

Inductive Logger : Type := new_Logger.

(** Logs a message with a timestamp. *)
Definition Logger_log (message : string) : Js Logger unit :=
  date <- new_Date ;;
  stamp <- toISOString date ;;
  console_log ("LOG: " ++ message ++ " at " ++ stamp).

(** The class before the principle is applied: [User] saves and logs. *)
Module Before.

Record User : Type := new_User { name : string; email : string; password : string }.

Definition User_getUser : Js User JsValue :=
  u <- this ;;
  ret (JsObject [("name", JsString (name u)); ("email", JsString (email u))]).

Definition User_save : Js User unit :=
  details <- User_getUser ;;
  console_log ("User " ++ JSON_stringify details ++ " saved to database") ;;
  logged <- User_getUser ;;
  date <- new_Date ;;
  stamp <- toISOString date ;;
  console_log ("LOG: User " ++ JSON_stringify logged ++ " saved to database at " ++ stamp).

End Before.

(** The statements of the file: the objects it builds and what it calls
    on them. *)
Record Toplevel : Type := mkToplevel { user : User; logger : Logger }.

Definition set_user (u : User) (t : Toplevel) : Toplevel := mkToplevel u (logger t).
Definition set_logger (l : Logger) (t : Toplevel) : Toplevel := mkToplevel (user t) l.

Definition toplevel : Toplevel :=
  mkToplevel (new_User "Alice" "alice@example.com" "AlicePassword") new_Logger.

Definition main : Js Toplevel unit :=
  on_field user set_user User_save ;;
  details <- on_field user set_user User_getUser ;;
  on_field logger set_logger (Logger_log ("User " ++ JSON_stringify details ++ " saved")).

End SingleResponsibility.

(** ** Open/Closed: discounts *)

Module OpenClosed.

Local Open Scope float_scope.

(** The class before the principle is applied: one class that branches
    on the customer type. *)
Module Before.

Record Discount : Type := new_Discount { customerType : string; amount : float }.

Definition Discount_calculateDiscount : Js Discount float :=
  d <- this ;;
  if (customerType d =? "regular")%string then ret (amount d * 0.05)
  else if (customerType d =? "silver")%string then ret (amount d * 0.1)
  else if (customerType d =? "gold")%string then ret (amount d * 0.15)
  else throw (new_Error "Customer type not supported").

End Before.

(** The abstract class [Discount]. *)
Class Discount (T : Type) : Type := calculateDiscount : Js T float.

Record RegularCustomer : Type := new_RegularCustomer { RegularCustomer_amount : float }.

#[export] Instance RegularCustomer_Discount : Discount RegularCustomer :=
  c <- this ;; ret (RegularCustomer_amount c * 0.05).

Record SilverCustomer : Type := new_SilverCustomer { SilverCustomer_amount : float }.

#[export] Instance SilverCustomer_Discount : Discount SilverCustomer :=
  c <- this ;; ret (SilverCustomer_amount c * 0.1).

Record GoldCustomer : Type := new_GoldCustomer { GoldCustomer_amount : float }.

#[export] Instance GoldCustomer_Discount : Discount GoldCustomer :=
  c <- this ;; ret (GoldCustomer_amount c * 0.15).

Record PremiumCustomer : Type := new_PremiumCustomer { PremiumCustomer_amount : float }.

#[export] Instance PremiumCustomer_Discount : Discount PremiumCustomer :=
  c <- this ;; ret (PremiumCustomer_amount c * 0.2).

Record Toplevel : Type :=
  mkToplevel
    { regularCustomer : RegularCustomer;
      silverCustomer : SilverCustomer;
      goldCustomer : GoldCustomer;
      premiumCustomer : PremiumCustomer }.

Definition set_regularCustomer (c : RegularCustomer) (t : Toplevel) : Toplevel :=
  mkToplevel c (silverCustomer t) (goldCustomer t) (premiumCustomer t).
Definition set_silverCustomer (c : SilverCustomer) (t : Toplevel) : Toplevel :=
  mkToplevel (regularCustomer t) c (goldCustomer t) (premiumCustomer t).
Definition set_goldCustomer (c : GoldCustomer) (t : Toplevel) : Toplevel :=
  mkToplevel (regularCustomer t) (silverCustomer t) c (premiumCustomer t).
Definition set_premiumCustomer (c : PremiumCustomer) (t : Toplevel) : Toplevel :=
  mkToplevel (regularCustomer t) (silverCustomer t) (goldCustomer t) c.

Definition toplevel : Toplevel :=
  mkToplevel (new_RegularCustomer 1000) (new_SilverCustomer 1000)
             (new_GoldCustomer 1000) (new_PremiumCustomer 1000).

Definition main : Js Toplevel unit :=
  (regular <- on_field regularCustomer set_regularCustomer calculateDiscount ;;
   console_log ("Regular Customer Discount: " ++ Number_toString regular) ;;
   silver <- on_field silverCustomer set_silverCustomer calculateDiscount ;;
   console_log ("Silver Customer Discount: " ++ Number_toString silver) ;;
   gold <- on_field goldCustomer set_goldCustomer calculateDiscount ;;
   console_log ("Gold Customer Discount: " ++ Number_toString gold) ;;
   premium <- on_field premiumCustomer set_premiumCustomer calculateDiscount ;;
   console_log ("Premium Customer Discount: " ++ Number_toString premium))%string.

End OpenClosed.

(** ** Liskov substitution: payments *)

Module LiskovSubstitution.

(** The abstract class [Payment]. *)
Class Payment (T : Type) : Type := processPayment : float -> Js T unit.

Inductive CreditCardPayment : Type := new_CreditCardPayment.

#[export] Instance CreditCardPayment_Payment : Payment CreditCardPayment :=
  fun amount =>
    console_log ("Processed credit card payment of $" ++ Number_toString amount).

Inductive PayPalPayment : Type := new_PayPalPayment.

#[export] Instance PayPalPayment_Payment : Payment PayPalPayment :=
  fun amount =>
    console_log ("Processed PayPal payment of $" ++ Number_toString amount).

Inductive BankTransferPayment : Type := new_BankTransferPayment.

#[export] Instance BankTransferPayment_Payment : Payment BankTransferPayment :=
  fun amount =>
    console_log ("Processed bank transfer payment of $" ++ Number_toString amount).

Definition processCustomerPayment {T : Type} `{Payment T}
    (paymentMethod : T) (amount : float) : World -> Completion unit * T * World :=
  call paymentMethod (processPayment amount).

Inductive CryptoPayment : Type := new_CryptoPayment.

#[export] Instance CryptoPayment_Payment : Payment CryptoPayment :=
  fun amount =>
    console_log ("Processed cryptocurrency payment of $" ++ Number_toString amount).

Record Toplevel : Type :=
  mkToplevel
    { creditCardPayment : CreditCardPayment;
      payPalPayment : PayPalPayment;
      bankTransferPayment : BankTransferPayment;
      cryptoPayment : CryptoPayment }.

Definition set_creditCardPayment (p : CreditCardPayment) (t : Toplevel) : Toplevel :=
  mkToplevel p (payPalPayment t) (bankTransferPayment t) (cryptoPayment t).
Definition set_payPalPayment (p : PayPalPayment) (t : Toplevel) : Toplevel :=
  mkToplevel (creditCardPayment t) p (bankTransferPayment t) (cryptoPayment t).
Definition set_bankTransferPayment (p : BankTransferPayment) (t : Toplevel) : Toplevel :=
  mkToplevel (creditCardPayment t) (payPalPayment t) p (cryptoPayment t).
Definition set_cryptoPayment (p : CryptoPayment) (t : Toplevel) : Toplevel :=
  mkToplevel (creditCardPayment t) (payPalPayment t) (bankTransferPayment t) p.

Definition toplevel : Toplevel :=
  mkToplevel new_CreditCardPayment new_PayPalPayment new_BankTransferPayment
             new_CryptoPayment.

Definition main : Js Toplevel unit :=
  on_field creditCardPayment set_creditCardPayment
           (fun p => processCustomerPayment p 100) ;;
  on_field payPalPayment set_payPalPayment (fun p => processCustomerPayment p 200) ;;
  on_field bankTransferPayment set_bankTransferPayment
           (fun p => processCustomerPayment p 300) ;;
  on_field cryptoPayment set_cryptoPayment (fun p => processCustomerPayment p 400).

End LiskovSubstitution.

(** ** Interface segregation: printers *)

Module InterfaceSegregation.

(** The single wide interface, and the class it forces to carry methods
    it cannot support. *)
Module Before.

Class Printer (T : Type) : Type :=
  { print : Js T unit;
    scan : Js T unit;
    fax : Js T unit }.

Inductive BasicPrinter : Type := new_BasicPrinter.

#[export] Instance BasicPrinter_Printer : Printer BasicPrinter :=
  { print := console_log "Printing document...";
    scan := throw (new_Error "Scan not supported by BasicPrinter.");
    fax := throw (new_Error "Fax not supported by BasicPrinter.") }.

End Before.

(** Smaller interfaces, one per functionality. *)
Class Printable (T : Type) : Type := print : Js T unit.
Class Scannable (T : Type) : Type := scan : Js T unit.
Class Faxable (T : Type) : Type := fax : Js T unit.

Inductive BasicPrinterISP : Type := new_BasicPrinterISP.

#[export] Instance BasicPrinterISP_Printable : Printable BasicPrinterISP :=
  console_log "Printing document...".

Inductive AdvancedPrinter : Type := new_AdvancedPrinter.

#[export] Instance AdvancedPrinter_Printable : Printable AdvancedPrinter :=
  console_log "Printing document...".
#[export] Instance AdvancedPrinter_Scannable : Scannable AdvancedPrinter :=
  console_log "Scanning document...".
#[export] Instance AdvancedPrinter_Faxable : Faxable AdvancedPrinter :=
  console_log "Faxing document...".

Class Photocopyable (T : Type) : Type := photocopy : Js T unit.

Inductive Photocopier : Type := new_Photocopier.

#[export] Instance Photocopier_Printable : Printable Photocopier :=
  console_log "Printing document...".
#[export] Instance Photocopier_Photocopyable : Photocopyable Photocopier :=
  console_log "Photocopying document...".

(** The operations each interface declares. *)
Definition interface_members (interface : string) : list string :=
  if interface =? "Printer" then ["print"; "scan"; "fax"]
  else if interface =? "Printable" then ["print"]
  else if interface =? "Scannable" then ["scan"]
  else if interface =? "Faxable" then ["fax"]
  else if interface =? "Photocopyable" then ["photocopy"]
  else [].

(** The [implements] clause of each class. *)
Definition implements (class : string) : list string :=
  if class =? "BasicPrinter" then ["Printer"]
  else if class =? "BasicPrinterISP" then ["Printable"]
  else if class =? "AdvancedPrinter" then ["Printable"; "Scannable"; "Faxable"]
  else if class =? "Photocopier" then ["Printable"; "Photocopyable"]
  else [].

(** The classes of the design with narrow interfaces. *)
Definition narrow_classes : list string :=
  ["BasicPrinterISP"; "AdvancedPrinter"; "Photocopier"].

Record Toplevel : Type :=
  mkToplevel
    { basicPrinter : BasicPrinterISP;
      advancedPrinter : AdvancedPrinter;
      photocopier : Photocopier }.

Definition set_basicPrinter (p : BasicPrinterISP) (t : Toplevel) : Toplevel :=
  mkToplevel p (advancedPrinter t) (photocopier t).
Definition set_advancedPrinter (p : AdvancedPrinter) (t : Toplevel) : Toplevel :=
  mkToplevel (basicPrinter t) p (photocopier t).
Definition set_photocopier (p : Photocopier) (t : Toplevel) : Toplevel :=
  mkToplevel (basicPrinter t) (advancedPrinter t) p.

Definition toplevel : Toplevel :=
  mkToplevel new_BasicPrinterISP new_AdvancedPrinter new_Photocopier.

Definition main : Js Toplevel unit :=
  on_field basicPrinter set_basicPrinter print ;;
  on_field advancedPrinter set_advancedPrinter print ;;
  on_field advancedPrinter set_advancedPrinter scan ;;
  on_field advancedPrinter set_advancedPrinter fax ;;
  on_field photocopier set_photocopier print ;;
  on_field photocopier set_photocopier photocopy.

End InterfaceSegregation.

(** ** Dependency inversion: databases *)

Module DependencyInversion.

Inductive MySqlDatabase : Type := new_MySqlDatabase.

Definition MySqlDatabase_save (data : string) : Js MySqlDatabase unit :=
  console_log (data ++ " is being saved to MySQL").

Inductive MongoDbDatabase : Type := new_MongoDbDatabase.

Definition MongoDbDatabase_save (data : string) : Js MongoDbDatabase unit :=
  console_log (data ++ " is being saved to MongoDB").

(** The module that builds its own databases. *)
Record HighLevelModule : Type :=
  mkHighLevelModule { mysqlDatabase : MySqlDatabase; mongoDatabase : MongoDbDatabase }.

Definition new_HighLevelModule : HighLevelModule :=
  mkHighLevelModule new_MySqlDatabase new_MongoDbDatabase.

Definition set_mysqlDatabase (d : MySqlDatabase) (h : HighLevelModule) : HighLevelModule :=
  mkHighLevelModule d (mongoDatabase h).

Definition set_mongoDatabase (d : MongoDbDatabase) (h : HighLevelModule) : HighLevelModule :=
  mkHighLevelModule (mysqlDatabase h) d.

Definition HighLevelModule_saveToMySQL (data : string) : Js HighLevelModule unit :=
  on_field mysqlDatabase set_mysqlDatabase (MySqlDatabase_save data).

Definition HighLevelModule_saveToMongoDB (data : string) : Js HighLevelModule unit :=
  on_field mongoDatabase set_mongoDatabase (MongoDbDatabase_save data).

(** The abstraction both sides depend on. *)
Class IDatabase (T : Type) : Type := save : string -> Js T unit.

Inductive MySqlDatabaseDIP : Type := new_MySqlDatabaseDIP.

#[export] Instance MySqlDatabaseDIP_IDatabase : IDatabase MySqlDatabaseDIP :=
  fun data => console_log (data ++ " is being saved to MySQL").

Inductive MongoDbDatabaseDIP : Type := new_MongoDbDatabaseDIP.

#[export] Instance MongoDbDatabaseDIP_IDatabase : IDatabase MongoDbDatabaseDIP :=
  fun data => console_log (data ++ " is being saved to MongoDB").

(** The module that is handed its database, any [IDatabase]. *)
Record HighLevelModuleDIP (D : Type) : Type := new_HighLevelModuleDIP { database : D }.
Arguments new_HighLevelModuleDIP {D} database.
Arguments database {D} h.

Definition set_database {D : Type} (d : D) (h : HighLevelModuleDIP D) : HighLevelModuleDIP D :=
  new_HighLevelModuleDIP d.

Definition HighLevelModuleDIP_saveData {D : Type} `{IDatabase D}
    (data : string) : Js (HighLevelModuleDIP D) unit :=
  on_field database set_database (save data).

(** [mysqlDIP] and [mongoDIP] are the objects the two modules are built
    with. *)
Record Toplevel : Type :=
  mkToplevel
    { highLevelModule : HighLevelModule;
      userModule : HighLevelModuleDIP MySqlDatabaseDIP;
      postModule : HighLevelModuleDIP MongoDbDatabaseDIP }.

Definition set_highLevelModule (h : HighLevelModule) (t : Toplevel) : Toplevel :=
  mkToplevel h (userModule t) (postModule t).
Definition set_userModule (h : HighLevelModuleDIP MySqlDatabaseDIP) (t : Toplevel)
    : Toplevel :=
  mkToplevel (highLevelModule t) h (postModule t).
Definition set_postModule (h : HighLevelModuleDIP MongoDbDatabaseDIP) (t : Toplevel)
    : Toplevel :=
  mkToplevel (highLevelModule t) (userModule t) h.

Definition toplevel : Toplevel :=
  let mysqlDIP := new_MySqlDatabaseDIP in
  let mongoDIP := new_MongoDbDatabaseDIP in
  mkToplevel new_HighLevelModule (new_HighLevelModuleDIP mysqlDIP)
             (new_HighLevelModuleDIP mongoDIP).

Definition main : Js Toplevel unit :=
  on_field highLevelModule set_highLevelModule (HighLevelModule_saveToMySQL "User data") ;;
  on_field highLevelModule set_highLevelModule (HighLevelModule_saveToMongoDB "Post data") ;;
  on_field userModule set_userModule (HighLevelModuleDIP_saveData "User data") ;;
  on_field postModule set_postModule (HighLevelModuleDIP_saveData "Post data").

End DependencyInversion.

(** ** The classes of the repository and their public methods *)

Module Repository.

Import SingleResponsibility OpenClosed LiskovSubstitution DependencyInversion.
Import InterfaceSegregation InterfaceSegregation.Before.
Module ISP := InterfaceSegregation.

(** A public method: the class that declares it, its name, the type of
    its receiver, of its arguments and of its result, and its body. *)
Record Method : Type :=
  mkMethod
    { class_name : string;
      method_name : string;
      This : Type;
      Args : Type;
      Result : Type;
      body : Args -> Js This Result }.

Definition nullary {S A : Type} (m : Js S A) : unit -> Js S A := fun _ => m.

Definition methods : list Method :=
  [ mkMethod "User" "getUser" User unit JsValue (nullary User_getUser);
    mkMethod "User" "save" User unit unit (nullary User_save);
    mkMethod "Logger" "log" Logger string unit Logger_log;
    mkMethod "RegularCustomer" "calculateDiscount" RegularCustomer unit float
      (nullary calculateDiscount);
    mkMethod "SilverCustomer" "calculateDiscount" SilverCustomer unit float
      (nullary calculateDiscount);
    mkMethod "GoldCustomer" "calculateDiscount" GoldCustomer unit float
      (nullary calculateDiscount);
    mkMethod "PremiumCustomer" "calculateDiscount" PremiumCustomer unit float
      (nullary calculateDiscount);
    mkMethod "CreditCardPayment" "processPayment" CreditCardPayment float unit
      processPayment;
    mkMethod "PayPalPayment" "processPayment" PayPalPayment float unit processPayment;
    mkMethod "BankTransferPayment" "processPayment" BankTransferPayment float unit
      processPayment;
    mkMethod "CryptoPayment" "processPayment" CryptoPayment float unit processPayment;
    mkMethod "BasicPrinter" "print" ISP.Before.BasicPrinter unit unit
      (nullary ISP.Before.print);
    mkMethod "BasicPrinter" "scan" ISP.Before.BasicPrinter unit unit
      (nullary ISP.Before.scan);
    mkMethod "BasicPrinter" "fax" ISP.Before.BasicPrinter unit unit
      (nullary ISP.Before.fax);
    mkMethod "BasicPrinterISP" "print" ISP.BasicPrinterISP unit unit (nullary ISP.print);
    mkMethod "AdvancedPrinter" "print" ISP.AdvancedPrinter unit unit (nullary ISP.print);
    mkMethod "AdvancedPrinter" "scan" ISP.AdvancedPrinter unit unit (nullary ISP.scan);
    mkMethod "AdvancedPrinter" "fax" ISP.AdvancedPrinter unit unit (nullary ISP.fax);
    mkMethod "Photocopier" "print" ISP.Photocopier unit unit (nullary ISP.print);
    mkMethod "Photocopier" "photocopy" ISP.Photocopier unit unit (nullary ISP.photocopy);
    mkMethod "MySqlDatabase" "save" MySqlDatabase string unit MySqlDatabase_save;
    mkMethod "MongoDbDatabase" "save" MongoDbDatabase string unit MongoDbDatabase_save;
    mkMethod "HighLevelModule" "saveToMySQL" HighLevelModule string unit
      HighLevelModule_saveToMySQL;
    mkMethod "HighLevelModule" "saveToMongoDB" HighLevelModule string unit
      HighLevelModule_saveToMongoDB;
    mkMethod "MySqlDatabaseDIP" "save" MySqlDatabaseDIP string unit save;
    mkMethod "MongoDbDatabaseDIP" "save" MongoDbDatabaseDIP string unit save;
    mkMethod "HighLevelModuleDIP" "saveData" (HighLevelModuleDIP MySqlDatabaseDIP)
      string unit HighLevelModuleDIP_saveData;
    mkMethod "HighLevelModuleDIP" "saveData" (HighLevelModuleDIP MongoDbDatabaseDIP)
      string unit HighLevelModuleDIP_saveData ].

(** The names of the methods a class declares. *)
Definition members (class : string) : list string :=
  map method_name (filter (fun m => class_name m =? class) methods).

(** The call leaves every field of the receiver as it found it. *)
Definition preserves_receiver (m : Method) : Prop :=
  forall (a : Args m) (s : This m) (w : World), receiver (body m a s w) = s.

(** The call made again on the same object, whatever the clock then
    reads, completes the same way and writes the same lines. *)
Definition repeatable_from (m : Method) (a : Args m) (s : This m) (w : World) (t : Z) : Prop :=
  let first := body m a s w in
  let second := body m a (receiver first) (mkWorld t (output first)) in
  completion second = completion first /\
  exists lines : list string,
    output first = (console w ++ lines)%list /\
    output second = (output first ++ lines)%list.

Definition repeatable (m : Method) : Prop :=
  forall (a : Args m) (s : This m) (w : World) (t : Z), repeatable_from m a s w t.

(** The same, when the clock reads the same at both calls. *)
Definition repeatable_at_one_time (m : Method) : Prop :=
  forall (a : Args m) (s : This m) (w : World), repeatable_from m a s w (now w).

Definition reads_clock (m : Method) : bool :=
  (class_name m =? "Logger") && (method_name m =? "log").

End Repository.

(** ** Reading back a quoted string

    The inverse of the quoting [JSON.stringify] does, one character at a
    time; it is what shows that the quoting loses nothing. *)

Module JsonReader.

Local Open Scope N_scope.

Definition hex_value (c : ascii) : option N :=
  let n := N_of_ascii c in
  if (48 <=? n) && (n <=? 57) then Some (n - 48)
  else if (97 <=? n) && (n <=? 102) then Some (n - 87)
  else None.

(** The character an escape letter stands for. *)
Definition escaped (e : ascii) : option ascii :=
  let n := N_of_ascii e in
  if n =? 98 then Some (ascii_of_N 8)
  else if n =? 116 then Some (ascii_of_N 9)
  else if n =? 110 then Some (ascii_of_N 10)
  else if n =? 102 then Some (ascii_of_N 12)
  else if n =? 114 then Some (ascii_of_N 13)
  else if n =? 34 then Some double_quote
  else if n =? 92 then Some backslash
  else None.

(** One character of the text between the quotes, and what follows it;
    nothing at the closing quote. *)
Definition read_char (s : string) : option (ascii * string) :=
  match s with
  | EmptyString => None
  | String c rest =>
      if N_of_ascii c =? 34 then None
      else if N_of_ascii c =? 92 then
        match rest with
        | String e rest' =>
            if N_of_ascii e =? 117 then
              match rest' with
              | String a (String b (String h (String l rest''))) =>
                  match hex_value a, hex_value b, hex_value h, hex_value l with
                  | Some 0, Some 0, Some x, Some y => Some (ascii_of_N (16 * x + y), rest'')
                  | _, _, _, _ => None
                  end
              | _ => None
              end
            else
              match escaped e with
              | Some c' => Some (c', rest')
              | None => None
              end
        | EmptyString => None
        end
      else Some (c, rest)
  end.

(** A string between double quotes, as it is. *)
Definition quoted (s : string) : string :=
  String double_quote (s ++ String double_quote "").

(** No character of the string is a control character. *)
Definition printable (s : string) : bool :=
  forallb (fun c => 32 <=? N_of_ascii c) (list_ascii_of_string s).

End JsonReader.

(** ** Reading back a timestamp

    The numbers [toISOString] wrote, read from the left; it is what
    shows that the timestamp tells the time. *)

Module StampReader.

Local Open Scope Z_scope.

Definition digit_of_char (c : ascii) : option (Decimal.uint -> Decimal.uint) :=
  let n := N_of_ascii c in
  if (n =? 48)%N then Some Decimal.D0
  else if (n =? 49)%N then Some Decimal.D1
  else if (n =? 50)%N then Some Decimal.D2
  else if (n =? 51)%N then Some Decimal.D3
  else if (n =? 52)%N then Some Decimal.D4
  else if (n =? 53)%N then Some Decimal.D5
  else if (n =? 54)%N then Some Decimal.D6
  else if (n =? 55)%N then Some Decimal.D7
  else if (n =? 56)%N then Some Decimal.D8
  else if (n =? 57)%N then Some Decimal.D9
  else None.

(** The digits a string starts with, and what follows them. *)
Fixpoint read_uint (s : string) : Decimal.uint * string :=
  match s with
  | EmptyString => (Decimal.Nil, s)
  | String c rest =>
      match digit_of_char c with
      | Some digit => let (d, rest') := read_uint rest in (digit d, rest')
      | None => (Decimal.Nil, s)
      end
  end.

Definition read_number (s : string) : Z * string :=
  let (d, rest) := read_uint s in (Z.of_N (N.of_uint d), rest).

(** A year: four digits, or a sign and six digits. *)
Definition read_year (s : string) : Z * string :=
  match s with
  | String c rest =>
      if (N_of_ascii c =? 43)%N then read_number rest
      else if (N_of_ascii c =? 45)%N then
        let (y, rest') := read_number rest in (- y, rest')
      else read_number s
  | EmptyString => (0, s)
  end.

End StampReader.

(** ** Properties *)

Import SingleResponsibility OpenClosed LiskovSubstitution DependencyInversion.
Import InterfaceSegregation InterfaceSegregation.Before Repository.

(** *** The runtime on the inputs the sources use *)

Lemma Number_toString_100 : Number_toString 100 = "100".
Proof. vm_compute. reflexivity. Qed.

Lemma Number_toString_examples :
  map Number_toString [200; 300; 400; 0.05; 1000 * 0.15; 1e21; -2.5e-7]%float
  = ["200"; "300"; "400"; "0.05"; "150"; "1e+21"; "-2.5e-7"].
Proof. vm_compute. reflexivity. Qed.

Lemma toISOString_examples :
  map (fun t => completion (toISOString (mkDate (TimeClip t)) tt (mkWorld 0 [])))
      [0; 1; 951782400000; 1730505600123; -1; 8640000000000001]%Z
  = [Normal "1970-01-01T00:00:00.000Z"; Normal "1970-01-01T00:00:00.001Z";
     Normal "2000-02-29T00:00:00.000Z"; Normal "2024-11-02T00:00:00.123Z";
     Normal "1969-12-31T23:59:59.999Z"; Throw (new_RangeError "Invalid time value")].
Proof. vm_compute. reflexivity. Qed.

(** The monad laws the method bodies are read with. *)
Lemma bind_ret_l {S A B : Type} (a : A) (k : A -> Js S B) (s : S) (w : World) :
  bind (ret a) k s w = k a s w.
Proof. reflexivity. Qed.

Lemma bind_throw {S A B : Type} (e : JsError) (k : A -> Js S B) (s : S) (w : World) :
  bind (throw e) k s w = (Throw e, s, w).
Proof. reflexivity. Qed.

Lemma bind_assoc {S A B C : Type} (m : Js S A) (k : A -> Js S B) (h : B -> Js S C)
    (s : S) (w : World) :
  bind (bind m k) h s w = bind m (fun a => bind (k a) h) s w.
Proof.
  unfold bind. destruct (m s w) as [[[a | e] s'] w']; reflexivity.
Qed.

Lemma console_log_spec {S : Type} (line : string) (s : S) (w : World) :
  console_log line s w = (Normal tt, s, mkWorld (now w) (console w ++ [line])).
Proof. reflexivity. Qed.

(** *** Liskov substitution *)

(** C1.  For every class implementing [Payment] (the four of the file
    among them) and every amount, [processCustomerPayment] called with an
    object of the class does exactly what [processPayment] called on the
    object does: same completion, same object, same console.  The call
    site is one definition over any implementation of [Payment]. *)
Theorem processCustomerPayment_is_processPayment :
  (forall (T : Type) (P : Payment T) (paymentMethod : T) (amount : float) (w : World),
      processCustomerPayment paymentMethod amount w
      = processPayment amount paymentMethod w)
  /\ (forall (amount : float) (w : World),
        output (processCustomerPayment new_CreditCardPayment amount w)
        = output (call new_CreditCardPayment (processPayment amount) w)
        /\ output (processCustomerPayment new_PayPalPayment amount w)
           = output (call new_PayPalPayment (processPayment amount) w)
        /\ output (processCustomerPayment new_BankTransferPayment amount w)
           = output (call new_BankTransferPayment (processPayment amount) w)
        /\ output (processCustomerPayment new_CryptoPayment amount w)
           = output (call new_CryptoPayment (processPayment amount) w)).
Proof.
  split.
  - intros T P paymentMethod amount w. reflexivity.
  - intros amount w. repeat split.
Qed.

(** C3.  With amount 100, [processCustomerPayment] writes one line for
    each of the four payment classes, [CryptoPayment] included; the line
    holds the label of the class and the text 100. *)
Theorem processCustomerPayment_100 (w : World) :
  (output (processCustomerPayment new_CreditCardPayment 100 w)
   = (console w ++ ["Processed credit card payment of $100"])%list
   /\ includes "Processed credit card payment of $100" "credit card" = true
   /\ includes "Processed credit card payment of $100" "100" = true)
  /\ (output (processCustomerPayment new_PayPalPayment 100 w)
      = (console w ++ ["Processed PayPal payment of $100"])%list
      /\ includes "Processed PayPal payment of $100" "PayPal" = true
      /\ includes "Processed PayPal payment of $100" "100" = true)
  /\ (output (processCustomerPayment new_BankTransferPayment 100 w)
      = (console w ++ ["Processed bank transfer payment of $100"])%list
      /\ includes "Processed bank transfer payment of $100" "bank transfer" = true
      /\ includes "Processed bank transfer payment of $100" "100" = true)
  /\ (output (processCustomerPayment new_CryptoPayment 100 w)
      = (console w ++ ["Processed cryptocurrency payment of $100"])%list
      /\ includes "Processed cryptocurrency payment of $100" "cryptocurrency" = true
      /\ includes "Processed cryptocurrency payment of $100" "100" = true).
Proof.
  unfold processCustomerPayment, call, processPayment, CreditCardPayment_Payment,
    PayPalPayment_Payment, BankTransferPayment_Payment, CryptoPayment_Payment.
  rewrite !console_log_spec, Number_toString_100.
  repeat split.
Qed.

(** *** Open/Closed *)

(** C2.  Built with amount 1000, the regular, silver, gold and premium
    customers return the discounts 50, 100, 150 and 200. *)
Theorem calculateDiscount_1000 (w : World) :
  completion (call (new_RegularCustomer 1000) calculateDiscount w) = Normal 50%float
  /\ completion (call (new_SilverCustomer 1000) calculateDiscount w) = Normal 100%float
  /\ completion (call (new_GoldCustomer 1000) calculateDiscount w) = Normal 150%float
  /\ completion (call (new_PremiumCustomer 1000) calculateDiscount w) = Normal 200%float.
Proof. repeat split. Qed.

(** C7.  The class that branches on [customerType] returns 5, 10 and 15
    percent of the amount for the types regular, silver and gold, and
    throws the error "Customer type not supported" exactly when the type
    is none of the three; it writes nothing. *)
Theorem Discount_calculateDiscount_by_type (customerType : string) (amount : float)
    (w : World) :
  let r := call (OpenClosed.Before.new_Discount customerType amount)
                OpenClosed.Before.Discount_calculateDiscount w in
  (customerType = "regular" -> completion r = Normal (amount * 0.05)%float)
  /\ (customerType = "silver" -> completion r = Normal (amount * 0.1)%float)
  /\ (customerType = "gold" -> completion r = Normal (amount * 0.15)%float)
  /\ (completion r = Throw (new_Error "Customer type not supported")
      <-> customerType <> "regular" /\ customerType <> "silver" /\ customerType <> "gold")
  /\ ((exists e, completion r = Throw e)
      -> completion r = Throw (new_Error "Customer type not supported"))
  /\ world r = w.
Proof.
  unfold call, OpenClosed.Before.Discount_calculateDiscount, bind, this. cbn.
  destruct (String.eqb_spec customerType "regular") as [-> | Hregular].
  { cbn. repeat split; try discriminate; try reflexivity.
    - intros [H _]. now elim H.
    - intros [e He]. discriminate He. }
  destruct (String.eqb_spec customerType "silver") as [-> | Hsilver].
  { cbn. repeat split; try discriminate; try reflexivity.
    - intros (_ & H & _). now elim H.
    - intros [e He]. discriminate He. }
  destruct (String.eqb_spec customerType "gold") as [-> | Hgold].
  { cbn. repeat split; try discriminate; try reflexivity.
    - intros (_ & _ & H). now elim H.
    - intros [e He]. discriminate He. }
  cbn. repeat split; try assumption; intros H; contradiction.
Qed.

Lemma Discount_calculateDiscount_by_type_witness :
  completion (call (OpenClosed.Before.new_Discount "gold" 2000)
                   OpenClosed.Before.Discount_calculateDiscount (mkWorld 0 []))
  = Normal 300%float
  /\ completion (call (OpenClosed.Before.new_Discount "premium" 1000)
                      OpenClosed.Before.Discount_calculateDiscount (mkWorld 0 []))
     = Throw (new_Error "Customer type not supported").
Proof.
  split.
  - destruct (Discount_calculateDiscount_by_type "gold" 2000 (mkWorld 0 []))
      as (_ & _ & Hgold & _).
    exact (Hgold eq_refl).
  - destruct (Discount_calculateDiscount_by_type "premium" 1000 (mkWorld 0 []))
      as (_ & _ & _ & Hthrow & _).
    apply Hthrow. repeat split; discriminate.
Defined.

(** *** Dependency inversion *)

(** C4.  [saveData("User data")] on a module built with a
    [MySqlDatabaseDIP] writes a line naming MySQL, on a module built with
    a [MongoDbDatabaseDIP] a line naming MongoDB; the two lines differ.
    [saveData] is one body for every database: it hands the data to the
    [save] of the database it was built with. *)
Theorem saveData_User_data (w : World) :
  output (call (new_HighLevelModuleDIP new_MySqlDatabaseDIP)
               (HighLevelModuleDIP_saveData "User data") w)
  = (console w ++ ["User data is being saved to MySQL"])%list
  /\ output (call (new_HighLevelModuleDIP new_MongoDbDatabaseDIP)
                  (HighLevelModuleDIP_saveData "User data") w)
     = (console w ++ ["User data is being saved to MongoDB"])%list
  /\ "User data is being saved to MySQL" <> "User data is being saved to MongoDB"
  /\ includes "User data is being saved to MySQL" "MySQL" = true
  /\ includes "User data is being saved to MySQL" "MongoDB" = false
  /\ includes "User data is being saved to MongoDB" "MongoDB" = true
  /\ includes "User data is being saved to MongoDB" "MySQL" = false
  /\ (forall (D : Type) (I : IDatabase D) (h : HighLevelModuleDIP D) (data : string)
             (w' : World),
         completion (call h (HighLevelModuleDIP_saveData data) w')
         = completion (call (database h) (save data) w')
         /\ world (call h (HighLevelModuleDIP_saveData data) w')
            = world (call (database h) (save data) w')).
Proof.
  repeat split; try reflexivity; try discriminate.
  - unfold call, HighLevelModuleDIP_saveData, on_field.
    destruct (save data (database h) w') as [[r d] w'']. reflexivity.
  - unfold call, HighLevelModuleDIP_saveData, on_field.
    destruct (save data (database h) w') as [[r d] w'']. reflexivity.
Qed.

(** C10.  For every string, [saveToMySQL] of the module that builds its
    own databases and [saveData] of the module handed a
    [MySqlDatabaseDIP] complete the same way and leave the same console;
    so do [saveToMongoDB] and [saveData] with a [MongoDbDatabaseDIP]. *)
Theorem HighLevelModule_same_output_as_DIP (data : string) (w : World) :
  (completion (call new_HighLevelModule (HighLevelModule_saveToMySQL data) w)
   = completion (call (new_HighLevelModuleDIP new_MySqlDatabaseDIP)
                      (HighLevelModuleDIP_saveData data) w)
   /\ output (call new_HighLevelModule (HighLevelModule_saveToMySQL data) w)
      = output (call (new_HighLevelModuleDIP new_MySqlDatabaseDIP)
                     (HighLevelModuleDIP_saveData data) w))
  /\ (completion (call new_HighLevelModule (HighLevelModule_saveToMongoDB data) w)
      = completion (call (new_HighLevelModuleDIP new_MongoDbDatabaseDIP)
                         (HighLevelModuleDIP_saveData data) w)
      /\ output (call new_HighLevelModule (HighLevelModule_saveToMongoDB data) w)
         = output (call (new_HighLevelModuleDIP new_MongoDbDatabaseDIP)
                        (HighLevelModuleDIP_saveData data) w)).
Proof. repeat split. Qed.

(** *** Single responsibility *)

(** C9.  Two users with the same name and email, whatever their
    passwords, get the same object from [getUser], holding the name and
    the email and nothing else, and the same console from [save]. *)
Theorem User_password_not_observable (u1 u2 : User) (w : World) :
  name u1 = name u2 ->
  email u1 = email u2 ->
  completion (call u1 User_getUser w) = completion (call u2 User_getUser w)
  /\ completion (call u1 User_getUser w)
     = Normal (JsObject [("name", JsString (name u1)); ("email", JsString (email u1))])
  /\ output (call u1 User_getUser w) = output (call u2 User_getUser w)
  /\ completion (call u1 User_save w) = completion (call u2 User_save w)
  /\ output (call u1 User_save w) = output (call u2 User_save w).
Proof.
  intros Hname Hemail.
  unfold call, User_save, User_getUser, bind, this, ret, console_log, completion, output.
  cbn. rewrite Hname, Hemail. repeat split.
Qed.

Lemma User_password_not_observable_witness :
  let alice := new_User "Alice" "alice@example.com" "AlicePassword" in
  let other := new_User "Alice" "alice@example.com" "hunter2" in
  password alice <> password other
  /\ completion (call alice User_getUser (mkWorld 0 []))
     = completion (call other User_getUser (mkWorld 0 []))
  /\ output (call alice User_save (mkWorld 0 []))
     = output (call other User_save (mkWorld 0 [])).
Proof.
  intros alice other. split.
  - discriminate.
  - pose proof (User_password_not_observable alice other (mkWorld 0 [])
                  eq_refl eq_refl) as (Hget & _ & _ & _ & Hsave).
    split; assumption.
Defined.

(** *** Interface segregation *)

(** C6.  On the [BasicPrinter] of the wide interface, [scan] and [fax]
    throw an error saying the operation is not supported: the call
    completes abruptly, writes nothing, and whatever follows it in the
    caller does not run.  [print] completes normally and writes its
    line. *)
Theorem BasicPrinter_scan_fax_unsupported
    (printer : InterfaceSegregation.Before.BasicPrinter) (w : World) :
  call printer InterfaceSegregation.Before.scan w
  = (Throw (new_Error "Scan not supported by BasicPrinter."), printer, w)
  /\ call printer InterfaceSegregation.Before.fax w
     = (Throw (new_Error "Fax not supported by BasicPrinter."), printer, w)
  /\ (forall (A : Type) (rest : unit -> Js InterfaceSegregation.Before.BasicPrinter A),
         call printer (bind InterfaceSegregation.Before.scan rest) w
         = (Throw (new_Error "Scan not supported by BasicPrinter."), printer, w))
  /\ (forall (A : Type) (rest : unit -> Js InterfaceSegregation.Before.BasicPrinter A),
         call printer (bind InterfaceSegregation.Before.fax rest) w
         = (Throw (new_Error "Fax not supported by BasicPrinter."), printer, w))
  /\ includes "Scan not supported by BasicPrinter." "not supported" = true
  /\ includes "Fax not supported by BasicPrinter." "not supported" = true
  /\ call printer InterfaceSegregation.Before.print w
     = (Normal tt, printer, mkWorld (now w) (console w ++ ["Printing document..."])).
Proof. repeat split. Qed.

(** C5.  In the design with narrow interfaces, every method that
    [BasicPrinterISP], [AdvancedPrinter] or [Photocopier] declares is an
    operation of an interface the class implements, the class declares
    every operation of those interfaces, and a call of the method
    completes normally, writing its one line: no call throws. *)
Theorem narrow_classes_support_every_operation (m : Method) :
  In m methods ->
  In (class_name m) narrow_classes ->
  (exists interface : string,
      In interface (implements (class_name m))
      /\ In (method_name m) (interface_members interface))
  /\ (forall interface operation : string,
         In interface (implements (class_name m)) ->
         In operation (interface_members interface) ->
         In operation (members (class_name m)))
  /\ (forall (a : Args m) (s : This m) (w : World),
         exists (v : Result m) (line : string),
           In (method_name m, line)
              [("print", "Printing document..."); ("scan", "Scanning document...");
               ("fax", "Faxing document..."); ("photocopy", "Photocopying document...")]
           /\ body m a s w = (Normal v, s, mkWorld (now w) (console w ++ [line]))).
Proof.
  intros Hm Hclass. unfold methods in Hm. cbv [In] in Hm.
  repeat (destruct Hm as [<- | Hm]; [ | ]);
    try contradiction;
    cbn [class_name method_name narrow_classes In] in Hclass |- *;
    (destruct Hclass as [Hclass | [Hclass | [Hclass | []]]]; try discriminate Hclass);
    (split; [ | split ]).
  all: try (intros interface operation; vm_compute; intuition (subst; tauto)).
  all: try (intros a s w; exists tt; eexists; split; [ | reflexivity ]; cbn; tauto).
  all: vm_compute.
  - exists "Printable". tauto.
  - exists "Printable". tauto.
  - exists "Scannable". tauto.
  - exists "Faxable". tauto.
  - exists "Printable". tauto.
  - exists "Photocopyable". tauto.
Qed.

Lemma narrow_classes_support_every_operation_witness :
  let m := mkMethod "AdvancedPrinter" "scan" AdvancedPrinter unit unit
                    (nullary InterfaceSegregation.scan) in
  In m methods
  /\ In (class_name m) narrow_classes
  /\ In (method_name m) (members (class_name m))
  /\ exists line : string,
       body m tt new_AdvancedPrinter (mkWorld 0 [])
       = (Normal tt, new_AdvancedPrinter, mkWorld 0 [line]).
Proof.
  intros m.
  assert (Hm : In m methods) by (repeat (first [left; reflexivity | right])).
  assert (Hclass : In (class_name m) narrow_classes) by (right; left; reflexivity).
  destruct (narrow_classes_support_every_operation m Hm Hclass)
    as ((interface & Himplements & Hmember) & Hdeclared & Hcall).
  repeat split; try assumption.
  - exact (Hdeclared interface (method_name m) Himplements Hmember).
  - destruct (Hcall tt new_AdvancedPrinter (mkWorld 0 [])) as (v & line & _ & Hrun).
    destruct v. exists line. exact Hrun.
Defined.

(** *** No method changes its receiver *)

Ltac run_method :=
  cbv [body nullary call bind ret this throw console_log on_field
       receiver completion output world fst snd console now
       User_getUser User_save
       calculateDiscount RegularCustomer_Discount SilverCustomer_Discount
       GoldCustomer_Discount PremiumCustomer_Discount
       processPayment CreditCardPayment_Payment PayPalPayment_Payment
       BankTransferPayment_Payment CryptoPayment_Payment
       InterfaceSegregation.Before.print InterfaceSegregation.Before.scan
       InterfaceSegregation.Before.fax InterfaceSegregation.Before.BasicPrinter_Printer
       InterfaceSegregation.print InterfaceSegregation.scan InterfaceSegregation.fax
       InterfaceSegregation.photocopy
       BasicPrinterISP_Printable AdvancedPrinter_Printable AdvancedPrinter_Scannable
       AdvancedPrinter_Faxable Photocopier_Printable Photocopier_Photocopyable
       MySqlDatabase_save MongoDbDatabase_save
       HighLevelModule_saveToMySQL HighLevelModule_saveToMongoDB
       mysqlDatabase mongoDatabase set_mysqlDatabase set_mongoDatabase
       save MySqlDatabaseDIP_IDatabase MongoDbDatabaseDIP_IDatabase
       HighLevelModuleDIP_saveData database set_database].

(** A method that does not read the clock. *)
Ltac clockless :=
  split; [ | split ];
  [ intros a s w; destruct s;
    run_method; reflexivity
  | intros a s w; destruct s;
    unfold repeatable_from; run_method;
    (split; [ reflexivity | ]);
    first [ exists []; rewrite !app_nil_r; split; reflexivity
          | eexists [_]; split; reflexivity ]
  | intros _ a s w t; destruct s;
    unfold repeatable_from; run_method;
    (split; [ reflexivity | ]);
    first [ exists []; rewrite !app_nil_r; split; reflexivity
          | eexists [_]; split; reflexivity ] ].

Lemma Logger_log_run (message : string) (s : Logger) (w : World) :
  Logger_log message s w
  = match TimeClip (now w) with
    | Some t =>
        match completion (toISOString (mkDate (Some t)) s w) with
        | Normal stamp =>
            (Normal tt, s,
             mkWorld (now w) (console w ++ ["LOG: " ++ message ++ " at " ++ stamp]))
        | Throw e => (Throw e, s, w)
        end
    | None => (Throw (new_RangeError "Invalid time value"), s, w)
    end.
Proof.
  cbv beta iota delta [Logger_log bind new_Date toISOString DateValue].
  destruct (TimeClip (now w)) as [t | ];
    cbv beta iota delta [ret throw console_log completion fst]; reflexivity.
Qed.

(** C8, as the claim has it, fails: [Logger.log] called twice on the same
    logger with the same message, once when the clock reads 0 and once
    when it reads 1, writes two different lines. *)
Lemma Logger_log_not_repeatable :
  let m := mkMethod "Logger" "log" Logger string unit Logger_log in
  In m methods
  /\ output (body m "saved" new_Logger (mkWorld 0 []))
     = ["LOG: saved at 1970-01-01T00:00:00.000Z"]
  /\ output (body m "saved" new_Logger
               (mkWorld 1 ["LOG: saved at 1970-01-01T00:00:00.000Z"]))
     = ["LOG: saved at 1970-01-01T00:00:00.000Z";
        "LOG: saved at 1970-01-01T00:00:00.001Z"]
  /\ ~ repeatable m
  /\ ~ (forall m' : Method, In m' methods -> preserves_receiver m' /\ repeatable m').
Proof.
  intros m.
  assert (Hm : In m methods) by (repeat (first [left; reflexivity | right])).
  assert (Hnot : ~ repeatable m).
  { intros H. destruct (H "saved" new_Logger (mkWorld 0 []) 1%Z) as (_ & lines & H1 & H2).
    vm_compute in H1. vm_compute in H2. rewrite <- H1 in H2. discriminate H2. }
  split; [ exact Hm | ].
  split; [ vm_compute; reflexivity | ].
  split; [ vm_compute; reflexivity | ].
  split; [ exact Hnot | ].
  intros H. apply Hnot. apply (H m Hm).
Qed.

(** C8, amended.  No public method of any class changes a field of its
    receiver.  Called again on the same object, every method other than
    [Logger.log] completes the same way and writes the same console
    output, whatever the clock reads; [Logger.log] does so when the clock
    reads the same at both calls. *)
Theorem methods_preserve_receiver (m : Method) :
  In m methods ->
  preserves_receiver m
  /\ repeatable_at_one_time m
  /\ (reads_clock m = false -> repeatable m).
Proof.
  intros Hm. unfold methods in Hm. cbv [In] in Hm.
  unfold preserves_receiver, repeatable_at_one_time, repeatable.
  repeat (destruct Hm as [<- | Hm]; [ | ]); try contradiction;
    cbn [This Args Result class_name method_name reads_clock].
  3: { split; [ | split ].
       - intros a s w. cbv beta iota delta [body]. rewrite Logger_log_run.
         destruct (TimeClip (now w)) as [t | ];
           cbv beta iota delta [toISOString DateValue ret completion receiver fst snd];
           reflexivity.
       - intros a s w. cbv beta iota zeta delta [repeatable_from body].
         rewrite (Logger_log_run a s w).
         destruct (TimeClip (now w)) as [t | ] eqn:Hclip;
           cbn [toISOString DateValue ret completion receiver output world fst snd];
           rewrite Logger_log_run; cbn [now console]; rewrite Hclip;
           cbn [toISOString DateValue ret completion receiver output world fst snd
                console now].
         + split; [ reflexivity | ]. eexists [_]. split; reflexivity.
         + split; [ reflexivity | ]. exists []. rewrite !app_nil_r. split; reflexivity.
       - intros H. discriminate H. }
  all: clockless.
Qed.

Lemma methods_preserve_receiver_witness :
  let m := mkMethod "User" "save" User unit unit (nullary User_save) in
  In m methods /\ preserves_receiver m /\ repeatable m.
Proof.
  intros m.
  assert (Hm : In m methods) by (repeat (first [left; reflexivity | right])).
  destruct (methods_preserve_receiver m Hm) as (Hkeeps & _ & Hrepeat).
  split; [ exact Hm | split; [ exact Hkeeps | exact (Hrepeat eq_refl) ] ].
Defined.


(** ** Further properties of the sources *)

(** *** Strings *)

Lemma append_assoc (a b c : string) : ((a ++ b) ++ c = a ++ (b ++ c))%string.
Proof. induction a as [ | x a IH]; cbn; [ reflexivity | now rewrite IH ]. Qed.

Lemma list_ascii_of_string_append (a b : string) :
  list_ascii_of_string (a ++ b) = (list_ascii_of_string a ++ list_ascii_of_string b)%list.
Proof. induction a as [ | x a IH]; cbn; [ reflexivity | now rewrite IH ]. Qed.

Lemma list_ascii_of_string_inj (a b : string) :
  list_ascii_of_string a = list_ascii_of_string b -> a = b.
Proof.
  intros H. rewrite <- (string_of_list_ascii_of_string a), H.
  apply string_of_list_ascii_of_string.
Qed.

Lemma append_inv_tail (a b c : string) : (a ++ c = b ++ c)%string -> a = b.
Proof.
  intros H. apply list_ascii_of_string_inj.
  apply (f_equal list_ascii_of_string) in H.
  rewrite !list_ascii_of_string_append in H.
  exact (app_inv_tail _ _ _ H).
Qed.

(** Two strings that end differently are different. *)
Lemma append_last_neq (a b c d : string) (x y : ascii) :
  x <> y -> (a ++ c ++ String x "" <> b ++ d ++ String y "")%string.
Proof.
  intros Hxy H. apply (f_equal list_ascii_of_string) in H.
  rewrite !list_ascii_of_string_append in H. cbn in H.
  rewrite !app_assoc in H.
  apply app_inj_tail in H. destruct H as [_ H]. contradiction.
Qed.

(** *** The statements of each file *)

Lemma Number_toString_amounts :
  Number_toString 200 = "200" /\ Number_toString 300 = "300"
  /\ Number_toString 400 = "400" /\ Number_toString 50 = "50"
  /\ Number_toString 150 = "150".
Proof. vm_compute. repeat split. Qed.

Ltac run_main :=
  cbv -[app append Number_toString toISOString TimeClip PrimFloat.mul];
  rewrite <- ?app_assoc.

(** X1.  The payments file, run from any console, completes normally and
    writes the four lines its comments announce, in order, after the
    lines already there; the four objects are left as built. *)
Theorem LiskovSubstitution_main_output (w : World) :
  completion (LiskovSubstitution.main LiskovSubstitution.toplevel w) = Normal tt
  /\ receiver (LiskovSubstitution.main LiskovSubstitution.toplevel w)
     = LiskovSubstitution.toplevel
  /\ output (LiskovSubstitution.main LiskovSubstitution.toplevel w)
     = (console w ++ ["Processed credit card payment of $100";
                      "Processed PayPal payment of $200";
                      "Processed bank transfer payment of $300";
                      "Processed cryptocurrency payment of $400"])%list.
Proof.
  destruct Number_toString_amounts as (H200 & H300 & H400 & _).
  destruct w as [t c]. run_main.
  rewrite Number_toString_100, H200, H300, H400.
  repeat split.
Qed.

(** X6.  The printers file, run from any console, completes normally and
    writes the six lines its comments announce, in order. *)
Theorem InterfaceSegregation_main_output (w : World) :
  completion (InterfaceSegregation.main InterfaceSegregation.toplevel w) = Normal tt
  /\ receiver (InterfaceSegregation.main InterfaceSegregation.toplevel w)
     = InterfaceSegregation.toplevel
  /\ output (InterfaceSegregation.main InterfaceSegregation.toplevel w)
     = (console w ++ ["Printing document..."; "Printing document...";
                      "Scanning document..."; "Faxing document...";
                      "Printing document..."; "Photocopying document..."])%list.
Proof. destruct w as [t c]. run_main. repeat split. Qed.

(** X8.  The databases file, run from any console, completes normally and
    writes the four lines its comments announce: the module that builds
    its databases and the modules handed theirs write the same two. *)
Theorem DependencyInversion_main_output (w : World) :
  completion (DependencyInversion.main DependencyInversion.toplevel w) = Normal tt
  /\ receiver (DependencyInversion.main DependencyInversion.toplevel w)
     = DependencyInversion.toplevel
  /\ output (DependencyInversion.main DependencyInversion.toplevel w)
     = (console w ++ ["User data is being saved to MySQL";
                      "Post data is being saved to MongoDB";
                      "User data is being saved to MySQL";
                      "Post data is being saved to MongoDB"])%list.
Proof. destruct w as [t c]. run_main. repeat split. Qed.

(** X4.  The discounts file, run from any console, completes normally and
    writes the discounts of the four customers, each built with 1000. *)
Theorem OpenClosed_main_output (w : World) :
  completion (OpenClosed.main OpenClosed.toplevel w) = Normal tt
  /\ receiver (OpenClosed.main OpenClosed.toplevel w) = OpenClosed.toplevel
  /\ output (OpenClosed.main OpenClosed.toplevel w)
     = (console w ++ ["Regular Customer Discount: 50";
                      "Silver Customer Discount: 100";
                      "Gold Customer Discount: 150";
                      "Premium Customer Discount: 200"])%list.
Proof.
  destruct Number_toString_amounts as (H200 & _ & _ & H50 & H150).
  destruct w as [t c]. run_main.
  change (1000 * 0.05)%float with 50%float.
  change (1000 * 0.1)%float with 100%float.
  change (1000 * 0.15)%float with 150%float.
  change (1000 * 0.2)%float with 200%float.
  rewrite Number_toString_100, H200, H50, H150.
  repeat split.
Qed.

(** *** Payments *)

(** X2.  Whatever the two amounts, payments of two different classes never
    write the same line: the line tells the payment method. *)
Theorem payment_lines_tell_methods_apart (a1 a2 : float) (w : World) :
  output (processCustomerPayment new_CreditCardPayment a1 w)
  <> output (processCustomerPayment new_PayPalPayment a2 w)
  /\ output (processCustomerPayment new_CreditCardPayment a1 w)
     <> output (processCustomerPayment new_BankTransferPayment a2 w)
  /\ output (processCustomerPayment new_CreditCardPayment a1 w)
     <> output (processCustomerPayment new_CryptoPayment a2 w)
  /\ output (processCustomerPayment new_PayPalPayment a1 w)
     <> output (processCustomerPayment new_BankTransferPayment a2 w)
  /\ output (processCustomerPayment new_PayPalPayment a1 w)
     <> output (processCustomerPayment new_CryptoPayment a2 w)
  /\ output (processCustomerPayment new_BankTransferPayment a1 w)
     <> output (processCustomerPayment new_CryptoPayment a2 w).
Proof.
  unfold processCustomerPayment, call, processPayment, CreditCardPayment_Payment,
    PayPalPayment_Payment, BankTransferPayment_Payment, CryptoPayment_Payment.
  rewrite !console_log_spec. unfold output, world. cbn [snd console].
  repeat split; intros H; apply app_inv_head in H; cbn [append] in H; discriminate H.
Qed.

(** *** Discounts *)


(** X5.  The discount is a product of binary floating-point numbers, taken
    without a check of the amount: 10 percent of 3 is not 0.3 and prints
    with seventeen digits, a negative amount gives a negative discount,
    and NaN gives NaN. *)
Theorem calculateDiscount_edge_amounts (w : World) :
  completion (call (new_SilverCustomer 3) calculateDiscount w)
  = Normal 0.30000000000000004%float
  /\ PrimFloat.eqb 0.30000000000000004 0.3 = false
  /\ Number_toString (3 * 0.1) = "0.30000000000000004"
  /\ completion (call (new_RegularCustomer (-100)) calculateDiscount w)
     = Normal (-5)%float
  /\ completion (call (new_GoldCustomer nan) calculateDiscount w) = Normal nan
  /\ Number_toString nan = "NaN".
Proof.
  assert (H : Number_toString (3 * 0.1) = "0.30000000000000004"
              /\ Number_toString nan = "NaN") by (vm_compute; split; reflexivity).
  destruct H as [H3 Hnan]. rewrite H3, Hnan. repeat split.
Qed.

(** *** Printers *)

(** X7.  [print] is the same on every printer: the [BasicPrinter] of the wide
    interface and the three classes of the narrow ones complete normally
    and write the same line. *)
Theorem print_is_the_same_on_every_printer (w : World) :
  call InterfaceSegregation.Before.new_BasicPrinter InterfaceSegregation.Before.print w
  = (Normal tt, InterfaceSegregation.Before.new_BasicPrinter,
     mkWorld (now w) (console w ++ ["Printing document..."]))
  /\ call new_BasicPrinterISP InterfaceSegregation.print w
     = (Normal tt, new_BasicPrinterISP,
        mkWorld (now w) (console w ++ ["Printing document..."]))
  /\ call new_AdvancedPrinter InterfaceSegregation.print w
     = (Normal tt, new_AdvancedPrinter,
        mkWorld (now w) (console w ++ ["Printing document..."]))
  /\ call new_Photocopier InterfaceSegregation.print w
     = (Normal tt, new_Photocopier,
        mkWorld (now w) (console w ++ ["Printing document..."])).
Proof. repeat split. Qed.

(** *** Databases *)

(** X9.  The line [saveData] writes tells both the data and the database:
    different data give different lines on the same database, and a line
    written for MySQL is never a line written for MongoDB, whatever the
    data. *)
Theorem saveData_lines_tell_data_and_store (data1 data2 : string) (w : World) :
  data1 <> data2 ->
  output (call (new_HighLevelModuleDIP new_MySqlDatabaseDIP)
               (HighLevelModuleDIP_saveData data1) w)
  <> output (call (new_HighLevelModuleDIP new_MySqlDatabaseDIP)
                  (HighLevelModuleDIP_saveData data2) w)
  /\ output (call (new_HighLevelModuleDIP new_MongoDbDatabaseDIP)
                  (HighLevelModuleDIP_saveData data1) w)
     <> output (call (new_HighLevelModuleDIP new_MongoDbDatabaseDIP)
                     (HighLevelModuleDIP_saveData data2) w)
  /\ (forall data data' : string,
         output (call (new_HighLevelModuleDIP new_MySqlDatabaseDIP)
                      (HighLevelModuleDIP_saveData data) w)
         <> output (call (new_HighLevelModuleDIP new_MongoDbDatabaseDIP)
                         (HighLevelModuleDIP_saveData data') w)).
Proof.
  intros Hdata.
  unfold call, HighLevelModuleDIP_saveData, on_field, save,
    MySqlDatabaseDIP_IDatabase, MongoDbDatabaseDIP_IDatabase, database.
  rewrite !console_log_spec. unfold output, world. cbn [snd console].
  repeat split.
  - intros H. apply app_inv_head in H. injection H as H.
    apply append_inv_tail in H. contradiction.
  - intros H. apply app_inv_head in H. injection H as H.
    apply append_inv_tail in H. contradiction.
  - intros data data'. rewrite !console_log_spec. cbn [snd console].
    intros H. apply app_inv_head in H. injection H as H.
    revert H.
    apply (append_last_neq data data' " is being saved to MySQ"
                           " is being saved to MongoD" "L" "B").
    discriminate.
Qed.

Lemma saveData_lines_tell_data_and_store_witness :
  output (call (new_HighLevelModuleDIP new_MySqlDatabaseDIP)
               (HighLevelModuleDIP_saveData "User data") (mkWorld 0 []))
  <> output (call (new_HighLevelModuleDIP new_MySqlDatabaseDIP)
                  (HighLevelModuleDIP_saveData "Post data") (mkWorld 0 [])).
Proof.
  apply (saveData_lines_tell_data_and_store "User data" "Post data" (mkWorld 0 [])).
  discriminate.
Defined.

(** *** Users *)

(** The object of [getUser] as [JSON.stringify] writes it. *)
Lemma JSON_stringify_getUser (n e : string) :
  JSON_stringify (JsObject [("name", JsString n); ("email", JsString e)])
  = ("{" ++ QuoteJSONString "name" ++ ":" ++ QuoteJSONString n ++ ","
         ++ QuoteJSONString "email" ++ ":" ++ QuoteJSONString e ++ "}")%string.
Proof.
  cbn [JSON_stringify map String.concat fst snd].
  rewrite !append_assoc. reflexivity.
Qed.

Lemma User_save_run (u : User) (w : World) :
  call u User_save w
  = (Normal tt, u,
     mkWorld (now w)
       (console w
        ++ ["User {" ++ QuoteJSONString "name" ++ ":" ++ QuoteJSONString (name u) ++ ","
            ++ QuoteJSONString "email" ++ ":" ++ QuoteJSONString (email u)
            ++ "} saved to database"])).
Proof.
  unfold call, User_save, User_getUser, bind, this, ret, console_log.
  rewrite JSON_stringify_getUser. rewrite !append_assoc. reflexivity.
Qed.

Lemma append_inv_head (a b c : string) : (a ++ b = a ++ c)%string -> b = c.
Proof.
  induction a as [ | x a IH]; cbn; intros H; [ exact H | ].
  injection H as H. exact (IH H).
Qed.

Lemma QuoteJSONString_append (s rest : string) :
  (QuoteJSONString s ++ rest)%string
  = String double_quote (quote_chars s ++ String double_quote rest).
Proof. unfold QuoteJSONString. cbn [append]. now rewrite append_assoc. Qed.

(** Reading gives back the character that was quoted. *)
Lemma read_char_quote_char (c : ascii) (rest : string) :
  JsonReader.read_char (quote_char c ++ rest) = Some (c, rest).
Proof.
  destruct c as [b0 b1 b2 b3 b4 b5 b6 b7].
  destruct b0, b1, b2, b3, b4, b5, b6, b7; reflexivity.
Qed.

(** The text between the quotes and what follows the closing quote are
    both determined by the quoted string: quoting loses nothing. *)
Lemma quote_chars_inj (s1 s2 r1 r2 : string) :
  (quote_chars s1 ++ String double_quote r1
   = quote_chars s2 ++ String double_quote r2)%string ->
  s1 = s2 /\ r1 = r2.
Proof.
  revert s2. induction s1 as [ | c1 s1 IH]; intros [ | c2 s2] H; cbn [quote_chars] in H.
  - cbn in H. injection H as H. split; [ reflexivity | exact H ].
  - rewrite append_assoc in H. apply (f_equal JsonReader.read_char) in H.
    rewrite read_char_quote_char in H. discriminate H.
  - rewrite append_assoc in H. apply (f_equal JsonReader.read_char) in H.
    rewrite read_char_quote_char in H. discriminate H.
  - rewrite !append_assoc in H. apply (f_equal JsonReader.read_char) in H.
    rewrite !read_char_quote_char in H. injection H as Hc H.
    destruct (IH s2 H) as [Hs Hr]. subst. split; reflexivity.
Qed.

Lemma printable_append (a b : string) :
  JsonReader.printable (a ++ b) = JsonReader.printable a && JsonReader.printable b.
Proof. unfold JsonReader.printable. now rewrite list_ascii_of_string_append, forallb_app. Qed.

Lemma printable_quote_char (c : ascii) : JsonReader.printable (quote_char c) = true.
Proof.
  destruct c as [b0 b1 b2 b3 b4 b5 b6 b7].
  destruct b0, b1, b2, b3, b4, b5, b6, b7; reflexivity.
Qed.

Lemma printable_QuoteJSONString (s : string) : JsonReader.printable (QuoteJSONString s) = true.
Proof.
  unfold QuoteJSONString.
  change (String double_quote (quote_chars s ++ String double_quote ""))
    with (String double_quote "" ++ (quote_chars s ++ String double_quote ""))%string.
  rewrite !printable_append.
  assert (H : JsonReader.printable (quote_chars s) = true).
  { induction s as [ | c s IH]; [ reflexivity | ].
    cbn [quote_chars]. now rewrite printable_append, printable_quote_char, IH. }
  rewrite H. reflexivity.
Qed.

(** X12.  Whatever the name and the email hold, the line [save] writes has no
    line break and no other control character: they are written as
    escapes. *)
Theorem User_save_line_is_printable (u : User) (w : World) :
  exists line : string,
    output (call u User_save w) = (console w ++ [line])%list
    /\ JsonReader.printable line = true.
Proof.
  rewrite User_save_run. eexists. split; [ reflexivity | ].
  rewrite !printable_append, !printable_QuoteJSONString. reflexivity.
Qed.

(** X13.  Two users get the same line from [save] exactly when they have the
    same name and the same email: the line tells both, and nothing of
    the password. *)
Theorem User_save_line_tells_name_and_email (u1 u2 : User) (w : World) :
  output (call u1 User_save w) = output (call u2 User_save w)
  <-> name u1 = name u2 /\ email u1 = email u2.
Proof.
  rewrite !User_save_run. unfold output, world. cbn [snd console]. split.
  - intros H. apply app_inv_head in H. injection H as H.
    rewrite !append_assoc in H. cbn [append] in H.
    apply quote_chars_inj in H. destruct H as [Hname H]. split; [ exact Hname | ].
    injection H as H.
    apply quote_chars_inj in H. exact (proj1 H).
  - intros [Hname Hemail]. rewrite Hname, Hemail. reflexivity.
Qed.

(** X10.  The old [User.save], which also logs, writes what the new
    [User.save] followed by [Logger.log] of the same sentence writes, and
    completes the same way, whatever the user and the clock. *)
Theorem User_save_split_keeps_output (n e p : string) (w : World) :
  let old := call (SingleResponsibility.Before.new_User n e p)
                  SingleResponsibility.Before.User_save w in
  let split :=
    call (SingleResponsibility.mkToplevel (new_User n e p) new_Logger)
         (on_field user set_user User_save ;;
          details <- on_field user set_user User_getUser ;;
          on_field logger set_logger
            (Logger_log ("User " ++ JSON_stringify details ++ " saved to database"))) w in
  completion old = completion split /\ output old = output split.
Proof.
  destruct w as [t c].
  cbv beta iota zeta delta
    [call bind ret this throw console_log on_field new_Date toISOString DateValue
     completion output world receiver fst snd now console
     SingleResponsibility.Before.User_save SingleResponsibility.Before.User_getUser
     SingleResponsibility.Before.name SingleResponsibility.Before.email
     User_save User_getUser Logger_log name email user logger set_user set_logger].
  destruct (TimeClip t) as [t' | ]; (split; [ reflexivity | ]).
  - rewrite !append_assoc. cbn [append]. reflexivity.
  - reflexivity.
Qed.

(** X11.  The users file, run while the clock reads a valid time, completes
    normally and writes two lines: the saved user, with the name and
    the email and without the password, then the log line, which ends
    with the time as [toISOString] writes it. *)
Theorem SingleResponsibility_main_output (w : World) :
  (Z.abs (now w) <= 8640000000000000)%Z ->
  exists stamp : string,
    completion (toISOString (mkDate (Some (now w))) tt w) = Normal stamp
    /\ completion (SingleResponsibility.main SingleResponsibility.toplevel w) = Normal tt
    /\ receiver (SingleResponsibility.main SingleResponsibility.toplevel w)
       = SingleResponsibility.toplevel
    /\ output (SingleResponsibility.main SingleResponsibility.toplevel w)
       = (console w
          ++ [("User {" ++ JsonReader.quoted "name" ++ ":" ++ JsonReader.quoted "Alice"
               ++ "," ++ JsonReader.quoted "email" ++ ":"
               ++ JsonReader.quoted "alice@example.com" ++ "} saved to database")%string;
              ("LOG: User {" ++ JsonReader.quoted "name" ++ ":"
               ++ JsonReader.quoted "Alice" ++ "," ++ JsonReader.quoted "email" ++ ":"
               ++ JsonReader.quoted "alice@example.com" ++ "} saved at "
               ++ stamp)%string])%list.
Proof.
  destruct w as [t c]. cbn [now]. intros Ht.
  assert (Hclip : TimeClip t = Some t).
  { unfold TimeClip. apply Z.leb_le in Ht. now rewrite Ht. }
  eexists. split; [ reflexivity | ].
  cbv beta iota zeta delta
    [SingleResponsibility.main SingleResponsibility.toplevel
     call bind ret this throw console_log on_field new_Date toISOString DateValue
     completion output world receiver fst snd now console
     User_save User_getUser Logger_log name email user logger set_user set_logger].
  rewrite Hclip. cbv beta iota.
  repeat split.
  rewrite <- app_assoc. reflexivity.
Qed.

Lemma SingleResponsibility_main_output_witness :
  output (SingleResponsibility.main SingleResponsibility.toplevel
            (mkWorld 1730505600123 []))
  = ["User {" ++ JsonReader.quoted "name" ++ ":" ++ JsonReader.quoted "Alice"
     ++ "," ++ JsonReader.quoted "email" ++ ":"
     ++ JsonReader.quoted "alice@example.com" ++ "} saved to database";
     "LOG: User {" ++ JsonReader.quoted "name" ++ ":"
     ++ JsonReader.quoted "Alice" ++ "," ++ JsonReader.quoted "email" ++ ":"
     ++ JsonReader.quoted "alice@example.com"
     ++ "} saved at 2024-11-02T00:00:00.123Z"].
Proof.
  destruct (SingleResponsibility_main_output (mkWorld 1730505600123 []))
    as (stamp & Hstamp & _ & _ & Hout).
  - cbn. lia.
  - vm_compute in Hstamp. injection Hstamp as <-. exact Hout.
Defined.

(** *** The console *)

(** X14.  No public method of any class rewrites the console or the clock: a
    call leaves in place what [console.log] was handed before, calls
    [console.log] at most once, after that, and not at all when it
    throws.  The count is of calls of [console.log], each with one
    message: a message that holds a line break is still one. *)
Theorem methods_only_append_to_console (m : Method) :
  In m methods ->
  forall (a : Args m) (s : This m) (w : World),
    now (world (body m a s w)) = now w
    /\ exists messages : list string,
         output (body m a s w) = (console w ++ messages)%list
         /\ (length messages <= 1)%nat
         /\ (forall e : JsError,
                completion (body m a s w) = Throw e -> messages = []).
Proof.
  intros Hm. unfold methods in Hm. cbv [In] in Hm.
  repeat (destruct Hm as [<- | Hm]; [ | ]); try contradiction;
    cbn [This Args Result]; intros a s w.
  3: { cbv beta iota delta [body]. rewrite Logger_log_run.
       destruct (TimeClip (now w)) as [t | ];
         cbv beta iota delta [toISOString DateValue ret completion receiver output
                              world fst snd];
         cbn [now console].
       - split; [ reflexivity | ]. eexists [_].
         repeat split; [ apply le_n | intros e He; discriminate He ].
       - split; [ reflexivity | ]. exists [].
         rewrite app_nil_r. repeat split. apply le_0_n. }
  all: destruct s; run_method; (split; [ reflexivity | ]);
    first [ exists []; rewrite app_nil_r;
            repeat split; apply le_0_n
          | eexists [_];
            repeat split; [ apply le_n | intros e He; discriminate He ] ].
Qed.

Lemma methods_only_append_to_console_witness :
  let m := mkMethod "BasicPrinter" "scan" InterfaceSegregation.Before.BasicPrinter
                    unit unit (nullary InterfaceSegregation.Before.scan) in
  In m methods
  /\ output (body m tt InterfaceSegregation.Before.new_BasicPrinter
               (mkWorld 0 ["Printing document..."]))
     = ["Printing document..."].
Proof.
  intros m.
  assert (Hm : In m methods) by (repeat (first [left; reflexivity | right])).
  split; [ exact Hm | ].
  destruct (methods_only_append_to_console m Hm tt
              InterfaceSegregation.Before.new_BasicPrinter
              (mkWorld 0 ["Printing document..."]))
    as (_ & lines & Hout & _ & Hthrow).
  rewrite Hout, (Hthrow _ eq_refl). reflexivity.
Defined.

(** *** Timestamps *)

Local Open Scope Z_scope.

Lemma DayFromYear_next (y : Z) :
  DayFromYear (y + 1) = DayFromYear y + DaysInYear y.
Proof.
  unfold DayFromYear, DaysInYear.
  destruct (Z.eqb_spec (y mod 4) 0); cbn [negb];
  destruct (Z.eqb_spec (y mod 100) 0); cbn [negb];
  destruct (Z.eqb_spec (y mod 400) 0); cbn [negb]; Z.div_mod_to_equations; lia.
Qed.

Lemma year_search_spec (fuel : nat) : forall y d : Z,
  DayFromYear y <= d -> d < DayFromYear (y + Z.of_nat fuel) ->
  DayFromYear (year_search fuel y d) <= d < DayFromYear (year_search fuel y d + 1).
Proof.
  induction fuel as [ | fuel IH]; intros y d Hlo Hhi.
  - cbn in Hhi. rewrite Z.add_0_r in Hhi. lia.
  - cbn [year_search]. destruct (Z.leb_spec (DayFromYear (y + 1)) d) as [Hle | Hgt].
    + apply IH; [ exact Hle | ].
      replace (y + 1 + Z.of_nat fuel) with (y + Z.of_nat (S fuel)) by lia. exact Hhi.
    + lia.
Qed.

(** For every time value, the search finds the year the day falls in. *)
Lemma YearFromTime_spec (t : Z) :
  Z.abs t <= 8640000000000000 ->
  DayFromYear (YearFromTime t) <= Day t < DayFromYear (YearFromTime t + 1).
Proof.
  intros Ht. unfold YearFromTime.
  assert (Hd : -100000000 <= Day t <= 100000000)
    by (unfold Day, msPerDay; Z.div_mod_to_equations; lia).
  apply year_search_spec.
  - destruct (Z.leb_spec 0 (Day t)); unfold DayFromYear; Z.div_mod_to_equations; lia.
  - change (Z.of_nat 1000) with 1000.
    destruct (Z.leb_spec 0 (Day t)); unfold DayFromYear; Z.div_mod_to_equations; lia.
Qed.

Lemma DayWithinYear_range (t : Z) :
  Z.abs t <= 8640000000000000 ->
  0 <= DayWithinYear t < 365 + InLeapYear t /\ 0 <= InLeapYear t <= 1.
Proof.
  intros Ht. pose proof (YearFromTime_spec t Ht) as H.
  rewrite DayFromYear_next in H. unfold DayWithinYear, InLeapYear.
  assert (365 <= DaysInYear (YearFromTime t) <= 366).
  { unfold DaysInYear.
    destruct (negb (YearFromTime t mod 4 =? 0)), (negb (YearFromTime t mod 100 =? 0)),
      (negb (YearFromTime t mod 400 =? 0)); lia. }
  lia.
Qed.

Lemma DateFromTime_range (t : Z) :
  Z.abs t <= 8640000000000000 -> 1 <= DateFromTime t <= 31.
Proof.
  intros Ht. destruct (DayWithinYear_range t Ht) as [Hd Hl].
  unfold DateFromTime, MonthFromTime.
  set (d := DayWithinYear t) in *. set (l := InLeapYear t) in *.
  repeat match goal with
         | |- context [if ?b then _ else _] =>
             match b with
             | (?x <? ?y) => destruct (Z.ltb_spec x y)
             end
         end; lia.
Qed.

(** The month and the date tell the day within the year. *)
Lemma month_date_tell_day (t1 t2 : Z) :
  InLeapYear t1 = InLeapYear t2 ->
  MonthFromTime t1 = MonthFromTime t2 ->
  DateFromTime t1 = DateFromTime t2 ->
  DayWithinYear t1 = DayWithinYear t2.
Proof.
  unfold DateFromTime, MonthFromTime.
  set (d1 := DayWithinYear t1). set (d2 := DayWithinYear t2).
  set (l1 := InLeapYear t1). set (l2 := InLeapYear t2).
  intros Hl.
  repeat match goal with
         | |- context [if ?b then _ else _] =>
             match b with
             | (?x <? ?y) => destruct (Z.ltb_spec x y)
             end
         end; lia.
Qed.

Lemma read_uint_string_of_uint (d : Decimal.uint) (c : ascii) (rest : string) :
  StampReader.digit_of_char c = None ->
  StampReader.read_uint (NilEmpty.string_of_uint d ++ String c rest) = (d, String c rest).
Proof.
  intros Hc. induction d as [ | d IH | d IH | d IH | d IH | d IH | d IH | d IH | d IH
                            | d IH | d IH ];
    cbn [NilEmpty.string_of_uint append StampReader.read_uint];
    [ now rewrite Hc | rewrite IH; reflexivity .. ].
Qed.

Lemma zeros_string_of_uint (k : nat) (d : Decimal.uint) :
  (zeros k ++ NilEmpty.string_of_uint d)%string
  = NilEmpty.string_of_uint (Nat.iter k Decimal.D0 d).
Proof. induction k as [ | k IH]; cbn; [ reflexivity | now rewrite IH ]. Qed.

Lemma of_uint_zeros (k : nat) (d : Decimal.uint) :
  N.of_uint (Nat.iter k Decimal.D0 d) = N.of_uint d.
Proof. induction k as [ | k IH]; [ reflexivity | exact IH ]. Qed.

Lemma digits_string_of_uint (n : Z) :
  digits n = NilEmpty.string_of_uint (N.to_uint (Z.to_N n)).
Proof.
  unfold digits. destruct (Z.to_N n) as [ | p]; [ reflexivity | ].
  cbn [N.to_uint]. pose proof (DecimalPos.Unsigned.to_uint_nonnil p) as Hp.
  destruct (Pos.to_uint p); [ contradiction | reflexivity .. ].
Qed.

(** A padded number followed by a character that is no digit reads as
    the number. *)
Lemma read_number_pad (width : nat) (n : Z) (c : ascii) (rest : string) :
  0 <= n ->
  StampReader.digit_of_char c = None ->
  StampReader.read_number (pad width n ++ String c rest) = (n, String c rest).
Proof.
  intros Hn Hc. unfold StampReader.read_number, pad.
  rewrite digits_string_of_uint, zeros_string_of_uint, read_uint_string_of_uint by exact Hc.
  rewrite of_uint_zeros, DecimalN.Unsigned.of_to, Z2N.id by exact Hn. reflexivity.
Qed.

Lemma read_year_iso_year (y : Z) (rest : string) :
  StampReader.read_year (iso_year y ++ String "-" rest) = (y, String "-" rest).
Proof.
  unfold iso_year.
  destruct (Z.leb_spec 0 y) as [Hpos | Hneg]; cbn [andb].
  - destruct (Z.leb_spec y 9999) as [Hsmall | Hlarge].
    + rewrite <- (read_number_pad 4 y "-" rest Hpos eq_refl).
      unfold pad. rewrite digits_string_of_uint, zeros_string_of_uint.
      destruct (Nat.iter _ Decimal.D0 _) eqn:Hd; try reflexivity.
      exfalso. revert Hd.
      generalize (4 - String.length (NilEmpty.string_of_uint (N.to_uint (Z.to_N y))))%nat.
      intros [ | k]; cbn; [ | discriminate ].
      destruct (Z.to_N y) as [ | p]; [ discriminate | ].
      apply DecimalPos.Unsigned.to_uint_nonnil.
    + change (StampReader.read_year (("+" ++ pad 6 (Z.abs y)) ++ String "-" rest))
        with (StampReader.read_number (pad 6 (Z.abs y) ++ String "-" rest)).
      rewrite read_number_pad by (lia || reflexivity). f_equal. lia.
  - change (StampReader.read_year (("-" ++ pad 6 (Z.abs y)) ++ String "-" rest))
      with (let (y', rest') :=
              StampReader.read_number (pad 6 (Z.abs y) ++ String "-" rest) in
            (- y', rest')).
    rewrite read_number_pad by (lia || reflexivity). f_equal. lia.
Qed.

Lemma MonthFromTime_range (t : Z) : 0 <= MonthFromTime t <= 11.
Proof.
  unfold MonthFromTime.
  repeat match goal with
         | |- context [if ?b then _ else _] => destruct b
         end; lia.
Qed.

(** The timestamp tells the time: two valid time values written the
    same way are the same. *)
Lemma toISOString_inj {S1 S2 : Type} (t1 t2 : Z) (s1 : S1) (s2 : S2) (w1 w2 : World) :
  Z.abs t1 <= 8640000000000000 ->
  Z.abs t2 <= 8640000000000000 ->
  completion (toISOString (mkDate (Some t1)) s1 w1)
  = completion (toISOString (mkDate (Some t2)) s2 w2) ->
  t1 = t2.
Proof.
  intros Ht1 Ht2 H.
  cbv beta iota delta [toISOString DateValue ret completion fst] in H.
  injection H as H. cbn [append] in H.
  pose proof (MonthFromTime_range t1) as HM1. pose proof (MonthFromTime_range t2) as HM2.
  pose proof (DateFromTime_range t1 Ht1) as HD1.
  pose proof (DateFromTime_range t2 Ht2) as HD2.
  apply (f_equal StampReader.read_year) in H. rewrite !read_year_iso_year in H.
  injection H as Hyear H.
  apply (f_equal StampReader.read_number) in H.
  rewrite !read_number_pad in H by (lia || reflexivity). injection H as Hmonth H.
  apply (f_equal StampReader.read_number) in H.
  rewrite !read_number_pad in H by (lia || reflexivity). injection H as Hdate H.
  apply (f_equal StampReader.read_number) in H.
  rewrite !read_number_pad in H
    by (reflexivity || (unfold HourFromTime; apply Z.mod_pos_bound; lia)).
  injection H as Hhour H.
  apply (f_equal StampReader.read_number) in H.
  rewrite !read_number_pad in H
    by (reflexivity || (unfold MinFromTime; apply Z.mod_pos_bound; lia)).
  injection H as Hmin H.
  apply (f_equal StampReader.read_number) in H.
  rewrite !read_number_pad in H
    by (reflexivity || (unfold SecFromTime; apply Z.mod_pos_bound; lia)).
  injection H as Hsec H.
  apply (f_equal StampReader.read_number) in H.
  rewrite !read_number_pad in H
    by (reflexivity || (unfold msFromTime; apply Z.mod_pos_bound; lia)).
  injection H as Hms.
  assert (Hleap : InLeapYear t1 = InLeapYear t2) by (unfold InLeapYear; now rewrite Hyear).
  assert (Hmonth' : MonthFromTime t1 = MonthFromTime t2) by lia.
  pose proof (month_date_tell_day t1 t2 Hleap Hmonth' Hdate) as Hday.
  unfold DayWithinYear in Hday. rewrite Hyear in Hday.
  assert (Hday' : Day t1 = Day t2) by lia.
  clear - Hday' Hhour Hmin Hsec Hms.
  unfold Day, msPerDay, HourFromTime, MinFromTime, SecFromTime, msFromTime in *.
  Z.div_mod_to_equations. lia.
Qed.

(** X15.  While the clock reads valid times, [Logger.log] completes
    normally, and the same message logged at two different readings of
    the clock gives two different lines: the line tells the time to the
    millisecond. *)
Theorem Logger_log_line_tells_the_time (message : string) (l : Logger)
    (c : list string) (t1 t2 : Z) :
  Z.abs t1 <= 8640000000000000 ->
  Z.abs t2 <= 8640000000000000 ->
  t1 <> t2 ->
  completion (call l (Logger_log message) (mkWorld t1 c)) = Normal tt
  /\ completion (call l (Logger_log message) (mkWorld t2 c)) = Normal tt
  /\ output (call l (Logger_log message) (mkWorld t1 c))
     <> output (call l (Logger_log message) (mkWorld t2 c)).
Proof.
  intros Ht1 Ht2 Hneq.
  assert (Hclip : forall t : Z, Z.abs t <= 8640000000000000 -> TimeClip t = Some t).
  { intros t Ht. unfold TimeClip. apply Z.leb_le in Ht. now rewrite Ht. }
  assert (Hstamp : forall t : Z, exists stamp : string,
             completion (toISOString (mkDate (Some t)) l (mkWorld t c)) = Normal stamp).
  { intros t. eexists.
    cbv beta iota delta [toISOString DateValue ret completion fst]. reflexivity. }
  destruct (Hstamp t1) as [stamp1 H1]. destruct (Hstamp t2) as [stamp2 H2].
  unfold call. rewrite !Logger_log_run. cbn [now console].
  rewrite (Hclip t1 Ht1), (Hclip t2 Ht2), H1, H2.
  unfold completion, output, world. cbn [fst snd console].
  repeat split. intros H. apply app_inv_head in H. injection H as H.
  apply append_inv_head in H. injection H as H. subst stamp2.
  apply Hneq. apply (toISOString_inj t1 t2 l l (mkWorld t1 c) (mkWorld t2 c) Ht1 Ht2).
  now rewrite H1, H2.
Qed.

Lemma Logger_log_line_tells_the_time_witness :
  output (call new_Logger (Logger_log "saved") (mkWorld 0 []))
  <> output (call new_Logger (Logger_log "saved") (mkWorld 1 [])).
Proof.
  apply (Logger_log_line_tells_the_time "saved" new_Logger [] 0 1); cbn; lia.
Defined.
